(** * leo-ex-3.py: upload an image, start an image-to-image generation, poll once

    A shallow embedding of [src/server/routers/ai-helpers/leo-ex-3.py] and
    the properties of its interaction with the provider.

    The script is straight-line Python: every statement either calls out
    (requests.post, requests.get, open, print, time.sleep) or computes on
    values decoded from a response, and any of these can raise, which ends
    the run.  It is embedded as a computation in a state-and-exception
    monad over a [world] that holds the log of everything the script did
    and a simulated clock.  What the outside answers is given by an
    arbitrary [env]; the theorems quantify over it.

    Library calls are modelled by what the script passes to them and what
    it gets back: [requests.post], [requests.get], [open] and
    [response.json()] may raise whatever the environment decides;
    [print] and [time.sleep(20)] do not raise, and exceptions that arrive
    from outside the statement being run (a keyboard interrupt) are left
    out. *)

From Stdlib Require Import ZArith QArith List String Ascii Lia Bool DecimalString.
Import ListNotations.
Open Scope string_scope.
Open Scope Z_scope.

(** ** Python values *)

Set Warnings "-register-all".  (* [value] nests through list and prod *)

Definition dict (A : Type) : Type := list (string * A).

(** Insertion-ordered lookup; the dict literals of the script have distinct
    keys, and so has every dict that a JSON decoder builds. *)
Fixpoint lookup {A : Type} (k : string) (d : dict A) : option A :=
  match d with
  | [] => None
  | (k', v) :: d' => if String.eqb k k' then Some v else lookup k d'
  end.

(** The values that [response.json()] and [json.loads] produce, which are
    also the values from which the script builds its payloads.  A finite
    float is given by its rational value. *)
Inductive value : Type :=
| VNone
| VBool (b : bool)
| VInt (z : Z)
| VFloat (q : Q)
| VStr (s : string)
| VList (l : list value)
| VDict (d : dict value).

Inductive exn : Type :=
| KeyError (k : string)
| TypeError
| JSONDecodeError
| RequestException (msg : string)
| OSError (msg : string).

Inductive result (A : Type) : Type :=
| Ok (a : A)
| Exn (e : exn).
Arguments Ok {A} a.
Arguments Exn {A} e.

Definition and_then {A B : Type} (r : result A) (f : A -> result B) : result B :=
  match r with
  | Ok a => f a
  | Exn e => Exn e
  end.

(** [v[k]] with a string key: only a dict accepts it. *)
Definition getitem (v : value) (k : string) : result value :=
  match v with
  | VDict d =>
      match lookup k d with
      | Some x => Ok x
      | None => Exn (KeyError k)
      end
  | _ => Exn TypeError
  end.

(** [str(n)] for an int. *)
Definition str_int (z : Z) : string := NilZero.string_of_int (Z.to_int z).

(** ** What the script exchanges with the outside *)

Record file : Type := mkFile {
  name : string;
  mode : string;
  content : list Byte.byte
}.

(** The keyword arguments the script passes to [requests]; [None] is an
    argument that is not passed. *)
Record request : Type := mkRequest {
  method : string;
  url : value;
  json_ : option value;
  data : option value;
  files : option (dict file);
  headers : option (dict string)
}.

(** [json] is what the method [response.json()] does on this response. *)
Record response : Type := mkResponse {
  status_code : Z;
  json : result value;
  text : string
}.

Inductive event : Type :=
| Request (q : request) (reply : result response)
| Open (path md : string) (reply : result file)
| Print (line : string)
| Sleep (secs : Z).

(** The log, newest entry first; each entry carries the time at which the
    script issued the operation. *)
Definition log : Type := list (Z * event).

Record world : Type := mkWorld {
  entries : log;
  now : Z
}.

(** Everything that is not the script: the interpreter's [json.loads] and
    [str] on floats and containers, and the outside world, which may answer
    according to all that happened so far.  [took] is the time that passes
    between the issuing of the newest operation of the log and the moment
    the script is ready for its next one, beyond the duration of a sleep. *)
Record env : Type := mkEnv {
  json_loads : string -> option value;
  repr : value -> string;
  send : log -> request -> result response;
  open_file : log -> string -> string -> result file;
  took : log -> N
}.

(** ** The monad *)

Definition M (A : Type) : Type := world -> result A * world.

Definition ret {A : Type} (a : A) : M A := fun w => (Ok a, w).

Definition bind {A B : Type} (m : M A) (f : A -> M B) : M B :=
  fun w =>
    match m w with
    | (Ok a, w') => f a w'
    | (Exn e, w') => (Exn e, w')
    end.

Definition lift {A : Type} (r : result A) : M A := fun w => (r, w).

Declare Scope py_scope.
Delimit Scope py_scope with py.
Notation "x <- m ;; k" := (bind m (fun x => k))
  (at level 61, m at next level, right associativity) : py_scope.
Notation "m ;; k" := (bind m (fun _ => k))
  (at level 61, right associativity) : py_scope.
Notation "x <~ r ;; k" := (and_then r (fun x => k))
  (at level 61, r at next level, right associativity) : py_scope.
Open Scope py_scope.

(** ** The script and its library calls *)

(** The literals of the script that are inputs of its four steps: the
    credential, the extension of step 1, the file of step 2 and the
    generation parameters of step 3. *)
Record config : Type := mkConfig {
  api_key : string;
  extension : string;
  image_file_path : string;
  height : Z;
  modelId : string;
  prompt : string;
  width : Z;
  init_strength : Q
}.

Section Script.

Variable E : env.

(** *** Library calls *)

(** An operation is logged with the time of its issuing; the clock then
    moves on by [atleast] and by whatever the outside adds. *)
Definition advance (ev : event) (atleast : Z) (w : world) : world :=
  let l := (now w, ev) :: entries w in
  {| entries := l; now := now w + atleast + Z.of_N (took E l) |}.

Definition perform {A : Type} (ev : event) (atleast : Z) (r : result A) : M A :=
  fun w => (r, advance ev atleast w).

Definition requests_request (q : request) : M response :=
  fun w =>
    let reply := send E (entries w) q in
    perform (Request q reply) 0 reply w.

(** [requests.post(url, json=.., data=.., files=.., headers=..)] *)
Definition requests_post (u : value) (j d : option value)
    (f : option (dict file)) (h : option (dict string)) : M response :=
  requests_request
    {| method := "POST"; url := u; json_ := j; data := d; files := f; headers := h |}.

(** [requests.get(url, headers=..)] *)
Definition requests_get (u : value) (h : option (dict string)) : M response :=
  requests_request
    {| method := "GET"; url := u; json_ := None; data := None; files := None;
       headers := h |}.

(** [open(path, mode)] *)
Definition open (path md : string) : M file :=
  fun w =>
    let reply := open_file E (entries w) path md in
    perform (Open path md reply) 0 reply w.

(** [print(s)] *)
Definition print (s : string) : M unit := perform (Print s) 0 (Ok tt).

(** [time.sleep(secs)] suspends the script for at least [secs]; the script
    calls it with a non-negative literal only. *)
Definition time_sleep (secs : Z) : M unit := perform (Sleep secs) secs (Ok tt).

(** [json.loads(v)]: a [str] is decoded, anything else a decoded response
    can hold is a TypeError. *)
Definition loads (v : value) : result value :=
  match v with
  | VStr s =>
      match json_loads E s with
      | Some x => Ok x
      | None => Exn JSONDecodeError
      end
  | _ => Exn TypeError
  end.

(** ["%s" % v] for a value decoded from a response. *)
Definition str (v : value) : string :=
  match v with
  | VStr s => s
  | VInt z => str_int z
  | VNone => "None"
  | VBool true => "True"
  | VBool false => "False"
  | _ => repr E v
  end.

(** *** The script *)

Variable c : config.

(** Lines 6 to 12. *)
Definition authorization : string := "Bearer " ++ api_key c.

Definition the_headers : dict string :=
  [ ("accept", "application/json");
    ("content-type", "application/json");
    ("authorization", authorization) ].

(** Lines 15 and 17. *)
Definition init_image_url : string := "https://cloud.leonardo.ai/api/rest/v1/init-image".

Definition init_image_payload : value := VDict [ ("extension", VStr (extension c)) ].

(** Lines 40 to 49. *)
Definition generations_url : string := "https://cloud.leonardo.ai/api/rest/v1/generations".

Definition generation_payload (image_id : value) : value :=
  VDict
    [ ("height", VInt (height c));
      ("modelId", VStr (modelId c));
      ("prompt", VStr (prompt c));
      ("width", VInt (width c));
      ("init_image_id", image_id);
      ("init_strength", VFloat (init_strength c)) ].

(** Line 58. *)
Definition generation_url (generation_id : value) : string :=
  "https://cloud.leonardo.ai/api/rest/v1/generations/" ++ str generation_id.

(** [response.json()[k1][k2]] *)
Definition json_at (response : response) (k1 k2 : string) : result value :=
  j <~ json response ;;
  u <~ getitem j k1 ;;
  getitem u k2.

(** The module body, lines 14 to 64. *)
Definition script : M unit :=
  let headers := the_headers in
  (* Get a presigned URL for uploading an image *)
  let url := VStr init_image_url in
  let payload := init_image_payload in
  response <- requests_post url (Some payload) None None (Some headers) ;;
  print ("Get a presigned URL for uploading an image: "
           ++ str_int (status_code response)) ;;
  (* Upload image via presigned URL *)
  fields <- lift (s <~ json_at response "uploadInitImage" "fields" ;; loads s) ;;
  url <- lift (json_at response "uploadInitImage" "url") ;;
  (* For getting the image later *)
  image_id <- lift (json_at response "uploadInitImage" "id") ;;
  f <- open (image_file_path c) "rb" ;;
  let files := [ ("file", f) ] in
  response <- requests_post url None (Some fields) (Some files) None ;;
  print ("Upload image via presigned URL: " ++ str_int (status_code response)) ;;
  (* Generate with Image to Image *)
  let url := VStr generations_url in
  let payload := generation_payload image_id in
  response <- requests_post url (Some payload) None None (Some headers) ;;
  print ("Generation of Images using Image to Image "
           ++ str_int (status_code response)) ;;
  (* Get the generation of images *)
  generation_id <- lift (json_at response "sdGenerationJob" "generationId") ;;
  let url := VStr (generation_url generation_id) in
  time_sleep 20 ;;
  response <- requests_get url (Some headers) ;;
  print (text response).

(** A run starts with an empty log at time 0. *)
Definition start : world := {| entries := []; now := 0 |}.

Definition run : result unit * world := script start.

End Script.

(** The literals of the source. *)
Definition leo_ex_3 : config :=
  {| api_key := "<YOUR_API_KEY>";
     extension := "jpg";
     image_file_path := "/workspace/test.jpg";
     height := 512;
     modelId := "1e60896f-3c26-4296-8ecc-53e2afecc132";
     prompt := "An oil painting of a cat";
     width := 512;
     init_strength := 1 # 2 |}.

(** ** Reading a run *)

Definition outcome (r : result unit * world) : result unit := fst r.

(** What the script did, oldest first. *)
Definition trace (r : result unit * world) : list (Z * event) := rev (entries (snd r)).

Definition events (r : result unit * world) : list event := map snd (trace r).

Definition call_of (ev : event) : option (request * result response) :=
  match ev with
  | Request q reply => Some (q, reply)
  | _ => None
  end.

Fixpoint calls_of (l : list event) : list (request * result response) :=
  match l with
  | [] => []
  | ev :: l' =>
      match call_of ev with
      | Some qr => qr :: calls_of l'
      | None => calls_of l'
      end
  end.

(** The HTTP calls of a run with their replies, in the order of issuing. *)
Definition calls (r : result unit * world) : list (request * result response) :=
  calls_of (events r).

(** The poll requests of a run: its GET calls. *)
Definition is_poll (qr : request * result response) : bool :=
  String.eqb (method (fst qr)) "GET".

Definition polls (r : result unit * world) : list (request * result response) :=
  filter is_poll (calls r).

Definition ends_with (s suffix : string) : Prop := exists p, s = p ++ suffix.

Definition with_init_strength (s : Q) (c : config) : config :=
  {| api_key := api_key c;
     extension := extension c;
     image_file_path := image_file_path c;
     height := height c;
     modelId := modelId c;
     prompt := prompt c;
     width := width c;
     init_strength := s |}.

(** The value under [uploadInitImage.fields] is missing, or is not a string
    that [json.loads] decodes. *)
Definition fields_unusable (E : env) (r : response) : Prop :=
  (exists e, json_at r "uploadInitImage" "fields" = Exn e) \/
  (exists v, json_at r "uploadInitImage" "fields" = Ok v /\
             forall s, v = VStr s -> json_loads E s = None).

(** The body is a dict without [sdGenerationJob], or with a dict under it
    that has no [generationId]. *)
Definition lacks_job (r : response) (k : string) : Prop :=
  exists d, json r = Ok (VDict d) /\
    ((lookup "sdGenerationJob" d = None /\ k = "sdGenerationJob") \/
     (exists d', lookup "sdGenerationJob" d = Some (VDict d') /\
                 lookup "generationId" d' = None /\ k = "generationId")).

(** A run gets as far as the upload when it issues a second call. *)
Definition reaches_upload (r : result unit * world) : Prop :=
  exists qr, nth_error (calls r) 1 = Some qr.

(** ** The shape of every run *)

Section Behaviour.

Variables (E : env) (c : config).

Definition call1 : request :=
  {| method := "POST"; url := VStr init_image_url;
     json_ := Some (init_image_payload c); data := None; files := None;
     headers := Some (the_headers c) |}.

Definition call2 (u fields : value) (f : file) : request :=
  {| method := "POST"; url := u; json_ := None; data := Some fields;
     files := Some [ ("file", f) ]; headers := None |}.

Definition call3 (image_id : value) : request :=
  {| method := "POST"; url := VStr generations_url;
     json_ := Some (generation_payload c image_id); data := None; files := None;
     headers := Some (the_headers c) |}.

Definition call4 (generation_id : value) : request :=
  {| method := "GET"; url := VStr (generation_url E generation_id);
     json_ := None; data := None; files := None;
     headers := Some (the_headers c) |}.

Definition log1 (r : response) : event :=
  Print ("Get a presigned URL for uploading an image: " ++ str_int (status_code r)).

Definition log2 (r : response) : event :=
  Print ("Upload image via presigned URL: " ++ str_int (status_code r)).

Definition log3 (r : response) : event :=
  Print ("Generation of Images using Image to Image " ++ str_int (status_code r)).

(** Lines 24 to 29 as one computation: the decoded form fields, the
    destination and the upload id, or the first exception on the way. *)
Definition ticket (r : response) : result (value * value * value) :=
  fields <~ (s <~ json_at r "uploadInitImage" "fields" ;; loads E s) ;;
  u <~ json_at r "uploadInitImage" "url" ;;
  image_id <~ json_at r "uploadInitImage" "id" ;;
  Ok (fields, u, image_id).

(** Line 56. *)
Definition job (r : response) : result value :=
  json_at r "sdGenerationJob" "generationId".

Definition opening (reply : result file) : event :=
  Open (image_file_path c) "rb" reply.

(** The eight ways a run can go: one for each statement that can raise,
    and the run to the end. *)
Inductive behaviour : result unit -> list event -> Prop :=
| stops_at_call1 e :
    behaviour (Exn e) [ Request call1 (Exn e) ]
| stops_at_ticket r1 e :
    ticket r1 = Exn e ->
    behaviour (Exn e) [ Request call1 (Ok r1); log1 r1 ]
| stops_at_open r1 fields u image_id e :
    ticket r1 = Ok (fields, u, image_id) ->
    behaviour (Exn e) [ Request call1 (Ok r1); log1 r1; opening (Exn e) ]
| stops_at_call2 r1 fields u image_id f e :
    ticket r1 = Ok (fields, u, image_id) ->
    behaviour (Exn e)
      [ Request call1 (Ok r1); log1 r1; opening (Ok f);
        Request (call2 u fields f) (Exn e) ]
| stops_at_call3 r1 fields u image_id f r2 e :
    ticket r1 = Ok (fields, u, image_id) ->
    behaviour (Exn e)
      [ Request call1 (Ok r1); log1 r1; opening (Ok f);
        Request (call2 u fields f) (Ok r2); log2 r2;
        Request (call3 image_id) (Exn e) ]
| stops_at_job r1 fields u image_id f r2 r3 e :
    ticket r1 = Ok (fields, u, image_id) ->
    job r3 = Exn e ->
    behaviour (Exn e)
      [ Request call1 (Ok r1); log1 r1; opening (Ok f);
        Request (call2 u fields f) (Ok r2); log2 r2;
        Request (call3 image_id) (Ok r3); log3 r3 ]
| stops_at_call4 r1 fields u image_id f r2 r3 generation_id e :
    ticket r1 = Ok (fields, u, image_id) ->
    job r3 = Ok generation_id ->
    behaviour (Exn e)
      [ Request call1 (Ok r1); log1 r1; opening (Ok f);
        Request (call2 u fields f) (Ok r2); log2 r2;
        Request (call3 image_id) (Ok r3); log3 r3;
        Sleep 20; Request (call4 generation_id) (Exn e) ]
| completes r1 fields u image_id f r2 r3 generation_id r4 :
    ticket r1 = Ok (fields, u, image_id) ->
    job r3 = Ok generation_id ->
    behaviour (Ok tt)
      [ Request call1 (Ok r1); log1 r1; opening (Ok f);
        Request (call2 u fields f) (Ok r2); log2 r2;
        Request (call3 image_id) (Ok r3); log3 r3;
        Sleep 20; Request (call4 generation_id) (Ok r4); Print (text r4) ].

End Behaviour.

(** The events of a world, oldest first. *)
Definition done (w : world) : list event := map snd (rev (entries w)).

(** ** Simulated time *)

(** The least time an operation keeps the script busy. *)
Definition lasts (ev : event) : Z :=
  match ev with
  | Sleep secs => secs
  | _ => 0
  end.

(** A log (newest first) is paced up to time [t] when every operation was
    issued no earlier than its predecessor had lasted, and the newest has
    lasted by [t]. *)
Fixpoint paced (l : log) (t : Z) : Prop :=
  match l with
  | [] => True
  | (t0, ev) :: l' => t0 + lasts ev <= t /\ paced l' t0
  end.

Definition steady {A : Type} (m : M A) : Prop :=
  forall w, paced (entries w) (now w) ->
            paced (entries (snd (m w))) (now (snd (m w))).

(** ** Mocked providers *)

Module Mock.

Definition bucket : string := "https://bucket.example/uploads".

Definition ticket_issued : response :=
  {| status_code := 200;
     json := Ok (VDict [ ("uploadInitImage",
                          VDict [ ("id", VStr "abc123");
                                  ("fields", VStr "{}");
                                  ("url", VStr bucket) ]) ]);
     text := "<upload ticket>" |}.

Definition stored : response :=
  {| status_code := 204; json := Exn JSONDecodeError; text := "" |}.

Definition job_accepted : response :=
  {| status_code := 200;
     json := Ok (VDict [ ("sdGenerationJob",
                          VDict [ ("generationId", VStr "gen-001");
                                  ("apiCreditCost", VInt 11) ]) ]);
     text := "<job>" |}.

Definition job_status : response :=
  {| status_code := 200;
     json := Ok (VDict [ ("generations_by_pk", VDict [ ("status", VStr "PENDING") ]) ]);
     text := "<generation PENDING>" |}.

Definition refused (status : Z) : response :=
  {| status_code := status;
     json := Ok (VDict [ ("error", VStr "refused") ]);
     text := "<error>" |}.

(** A provider that answers call 1 with [r1] and call 3 with [r3]. *)
Definition answer (r1 r3 : response) (_ : log) (q : request) : result response :=
  match url q with
  | VStr u =>
      if String.eqb u init_image_url then Ok r1
      else if String.eqb u bucket then Ok stored
      else if String.eqb u generations_url then Ok r3
      else if String.prefix generations_url u then Ok job_status
      else Exn (RequestException "no route to host")
  | _ => Exn (RequestException "invalid URL")
  end.

Definition provider (r1 r3 : response) : env :=
  {| json_loads := fun s => if String.eqb s "{}" then Some (VDict []) else None;
     repr := fun _ => "<repr>";
     send := answer r1 r3;
     open_file := fun _ path md => Ok {| name := path; mode := md; content := [] |};
     took := fun _ => 1%N |}.

(** Everything goes well. *)
Definition friendly : env := provider ticket_issued job_accepted.

(** Call 1 is refused with status 401 and an error body. *)
Definition unauthorized : env := provider (refused 401) job_accepted.

(** Call 1 answers with status 500, but its body carries the ticket. *)
Definition confused : env :=
  provider {| status_code := 500; json := json ticket_issued; text := "" |} job_accepted.

(** Call 3 is refused with status 400 and an error body. *)
Definition rejecting : env := provider ticket_issued (refused 400).

(** The ticket carries form fields that are not JSON. *)
Definition ticket_garbled : response :=
  {| status_code := 200;
     json := Ok (VDict [ ("uploadInitImage",
                          VDict [ ("id", VStr "abc123");
                                  ("fields", VStr "key=1");
                                  ("url", VStr bucket) ]) ]);
     text := "<upload ticket>" |}.

Definition garbled : env := provider ticket_garbled job_accepted.

End Mock.

(** The log at the moment line 32 opens the file: call 1 answered with
    [r1], and the log line of line 21. *)
Definition log_at_open (E : env) (c : config) (r1 : response) : log :=
  entries (advance E (log1 r1) 0 (advance E (Request (call1 c) (Ok r1)) 0 start)).

(** ** Further readings of a run *)

(** The lines a run prints, in order. *)
Fixpoint lines_of (l : list event) : list string :=
  match l with
  | [] => []
  | Print line :: l' => line :: lines_of l'
  | _ :: l' => lines_of l'
  end.

Definition printed (r : result unit * world) : list string := lines_of (events r).

(** What the script prints about the answer to its [i]-th call (from 0):
    lines 21, 36 and 53 for the first three, line 64 for the last. *)
Definition report (i : nat) (r : response) : string :=
  match i with
  | 0%nat => "Get a presigned URL for uploading an image: " ++ str_int (status_code r)
  | 1%nat => "Upload image via presigned URL: " ++ str_int (status_code r)
  | 2%nat => "Generation of Images using Image to Image " ++ str_int (status_code r)
  | _ => text r
  end.

(** The reports for the answered calls of a list, up to the first call
    that raised. *)
Fixpoint reports (i : nat) (l : list (request * result response)) : list string :=
  match l with
  | [] => []
  | (_, Ok r) :: l' => report i r :: reports (S i) l'
  | (_, Exn _) :: _ => []
  end.

(** The exception with which an operation of the log ended, if it did. *)
Definition failing (ev : event) : option exn :=
  match ev with
  | Request _ (Exn e) => Some e
  | Open _ _ (Exn e) => Some e
  | _ => None
  end.

Definition is_open (ev : event) : bool :=
  match ev with
  | Open _ _ _ => true
  | _ => false
  end.

Definition is_sleep (ev : event) : bool :=
  match ev with
  | Sleep _ => true
  | _ => false
  end.

(** Each operation of a trace (oldest first) is issued no earlier than the
    one before it had lasted. *)
Fixpoint spaced (l : list (Z * event)) : Prop :=
  match l with
  | [] => True
  | (t1, e1) :: l' =>
      match l' with
      | [] => True
      | (t2, _) :: _ => t1 + lasts e1 <= t2 /\ spaced l'
      end
  end.

(** ** Further mocked providers *)

(** A provider like the friendly one on a machine without the image. *)
Definition without_image : env :=
  {| json_loads := json_loads Mock.friendly;
     repr := repr Mock.friendly;
     send := send Mock.friendly;
     open_file := fun _ _ _ => Exn (OSError "No such file or directory");
     took := took Mock.friendly |}.

(** The upload is answered with status 500 and a body that is not JSON. *)
Definition failed_upload : response :=
  {| status_code := 500; json := Exn JSONDecodeError; text := "Internal Server Error" |}.

Definition failing_bucket : env :=
  {| json_loads := json_loads Mock.friendly;
     repr := repr Mock.friendly;
     send := fun h q =>
       match url q with
       | VStr u => if String.eqb u Mock.bucket then Ok failed_upload
                   else send Mock.friendly h q
       | _ => send Mock.friendly h q
       end;
     open_file := open_file Mock.friendly;
     took := took Mock.friendly |}.

(** Call 3 is answered with status 402 and a null generation id. *)
Definition null_job : response :=
  {| status_code := 402;
     json := Ok (VDict [ ("sdGenerationJob", VDict [ ("generationId", VNone) ]) ]);
     text := "<job without id>" |}.

Definition without_id : env := Mock.provider Mock.ticket_issued null_job.

(** * Proofs *)

(** ** One statement at a time *)

Section Steps.

Variable E : env.

Lemma bind_request {B : Type} (q : request) (k : response -> M B) (w : world) :
  bind (requests_request E q) k w =
  match send E (entries w) q with
  | Ok r => k r (advance E (Request q (Ok r)) 0 w)
  | Exn e => (Exn e, advance E (Request q (Exn e)) 0 w)
  end.
Proof.
  unfold bind, requests_request, perform.
  destruct (send E (entries w) q); reflexivity.
Qed.

Lemma bind_open {B : Type} (path md : string) (k : file -> M B) (w : world) :
  bind (open E path md) k w =
  match open_file E (entries w) path md with
  | Ok f => k f (advance E (Open path md (Ok f)) 0 w)
  | Exn e => (Exn e, advance E (Open path md (Exn e)) 0 w)
  end.
Proof.
  unfold bind, open, perform.
  destruct (open_file E (entries w) path md); reflexivity.
Qed.

Lemma bind_print {B : Type} (line : string) (k : unit -> M B) (w : world) :
  bind (print E line) k w = k tt (advance E (Print line) 0 w).
Proof. reflexivity. Qed.

Lemma bind_sleep {B : Type} (secs : Z) (k : unit -> M B) (w : world) :
  bind (time_sleep E secs) k w = k tt (advance E (Sleep secs) secs w).
Proof. reflexivity. Qed.

Lemma bind_lift {A B : Type} (r : result A) (k : A -> M B) (w : world) :
  bind (lift r) k w =
  match r with
  | Ok a => k a w
  | Exn e => (Exn e, w)
  end.
Proof. unfold bind, lift. destruct r; reflexivity. Qed.

Lemma done_advance (ev : event) (atleast : Z) (w : world) :
  done (advance E ev atleast w) = (done w ++ [ev])%list.
Proof. unfold done, advance. cbn [entries]. simpl rev. now rewrite map_app. Qed.

End Steps.

Section BehaviourProof.

Variables (E : env) (c : config).

Lemma done_start : done start = [].
Proof. reflexivity. Qed.

Ltac logged := cbn [fst snd]; rewrite ?done_advance, done_start; cbn [app].

Lemma run_behaviour : behaviour E c (outcome (run E c)) (events (run E c)).
Proof.
  unfold outcome, events, trace, run.
  fold (done (snd (script E c start))).
  unfold script, requests_post, requests_get.
  fold (call1 c).
  rewrite bind_request.
  destruct (send E (entries start) (call1 c)) as [r1|e].
  2:{ logged. apply stops_at_call1. }
  rewrite bind_print, bind_lift.
  destruct (s <~ json_at r1 "uploadInitImage" "fields" ;; loads E s)
    as [fields|e] eqn:Hfields.
  2:{ logged. apply stops_at_ticket. unfold ticket. now rewrite Hfields. }
  rewrite bind_lift.
  destruct (json_at r1 "uploadInitImage" "url") as [u|e] eqn:Hurl.
  2:{ logged. apply stops_at_ticket. unfold ticket. now rewrite Hfields, Hurl. }
  rewrite bind_lift.
  destruct (json_at r1 "uploadInitImage" "id") as [image_id|e] eqn:Hid.
  2:{ logged. apply stops_at_ticket. unfold ticket.
      now rewrite Hfields, Hurl, Hid. }
  assert (Hticket : ticket E r1 = Ok (fields, u, image_id)).
  { unfold ticket. now rewrite Hfields, Hurl, Hid. }
  clear Hfields Hurl Hid.
  rewrite bind_open.
  match goal with |- context [open_file E ?l ?p ?m] =>
    destruct (open_file E l p m) as [f|e] end.
  2:{ logged. eapply stops_at_open; eassumption. }
  fold (call2 u fields f).
  rewrite bind_request.
  match goal with |- context [send E ?l ?q] =>
    destruct (send E l q) as [r2|e] end.
  2:{ logged. eapply stops_at_call2; eassumption. }
  rewrite bind_print.
  fold (call3 c image_id).
  rewrite bind_request.
  match goal with |- context [send E ?l ?q] =>
    destruct (send E l q) as [r3|e] end.
  2:{ logged. eapply stops_at_call3; eassumption. }
  rewrite bind_print, bind_lift.
  fold (job r3).
  destruct (job r3) as [generation_id|e] eqn:Hjob.
  2:{ logged. eapply stops_at_job; eassumption. }
  rewrite bind_sleep.
  fold (call4 E c generation_id).
  rewrite bind_request.
  match goal with |- context [send E ?l ?q] =>
    destruct (send E l q) as [r4|e] end.
  2:{ logged. eapply stops_at_call4; eassumption. }
  unfold print, perform.
  logged. eapply completes; eassumption.
Qed.

End BehaviourProof.

(** ** Simulated time is paced *)

Section Pace.

Variable E : env.

Lemma steady_perform {A : Type} (ev : event) (atleast : Z) (r : result A) :
  lasts ev <= atleast -> steady (perform E ev atleast r).
Proof.
  intros Hev w Hw. unfold perform, advance. cbn [snd entries now paced].
  split; [lia | exact Hw].
Qed.

Lemma steady_lift {A : Type} (r : result A) : steady (lift r).
Proof. intros w Hw. exact Hw. Qed.

Lemma steady_bind {A B : Type} (m : M A) (k : A -> M B) :
  steady m -> (forall a, steady (k a)) -> steady (bind m k).
Proof.
  intros Hm Hk w Hw. unfold bind.
  specialize (Hm w Hw).
  destruct (m w) as [[a|e] w']; cbn [snd] in *.
  - apply Hk, Hm.
  - exact Hm.
Qed.

Lemma steady_request (q : request) : steady (requests_request E q).
Proof.
  intros w Hw. unfold requests_request.
  apply (steady_perform (Request q (send E (entries w) q)) 0); [reflexivity | exact Hw].
Qed.

Lemma steady_open (path md : string) : steady (open E path md).
Proof.
  intros w Hw. unfold open.
  apply (steady_perform (Open path md (open_file E (entries w) path md)) 0);
    [reflexivity | exact Hw].
Qed.

Lemma steady_print (line : string) : steady (print E line).
Proof. apply steady_perform. reflexivity. Qed.

Lemma steady_sleep (secs : Z) : steady (time_sleep E secs).
Proof. apply steady_perform. cbn. lia. Qed.

Lemma steady_script (c : config) : steady (script E c).
Proof.
  unfold script, requests_post, requests_get.
  repeat first
    [ apply steady_bind; [ | intro ]
    | apply steady_request | apply steady_open | apply steady_print
    | apply steady_sleep | apply steady_lift ].
Qed.

Lemma run_paced (c : config) :
  paced (entries (snd (run E c))) (now (snd (run E c))).
Proof. apply steady_script. exact I. Qed.

End Pace.

(** Pacing read on the trace, oldest first. *)
Lemma paced_trace (l : log) (t : Z) (pre post : list (Z * event))
    (t1 t2 : Z) (e1 e2 : event) :
  paced l t ->
  rev l = (pre ++ (t1, e1) :: (t2, e2) :: post)%list ->
  t1 + lasts e1 <= t2.
Proof.
  revert t post. induction l as [|[t0 ev] l IH]; intros t post Hp Hl.
  - destruct pre; discriminate.
  - cbn [paced] in Hp. destruct Hp as [_ Hp]. cbn [rev] in Hl.
    destruct post as [|x post' _] using rev_ind.
    + replace (pre ++ [(t1, e1); (t2, e2)])%list
        with ((pre ++ [(t1, e1)]) ++ [(t2, e2)])%list in Hl
        by now rewrite <- app_assoc.
      apply app_inj_tail in Hl. destruct Hl as [Hl Heq]. inversion Heq; subst.
      destruct l as [|[t' e'] l']; [destruct pre; discriminate|].
      cbn [rev] in Hl. apply app_inj_tail in Hl. destruct Hl as [_ Heq'].
      inversion Heq'; subst. cbn [paced] in Hp. tauto.
    + replace (pre ++ (t1, e1) :: (t2, e2) :: post' ++ [x])%list
        with ((pre ++ (t1, e1) :: (t2, e2) :: post') ++ [x])%list in Hl
        by (rewrite <- app_assoc; reflexivity).
      apply app_inj_tail in Hl. destruct Hl as [Hl _].
      eapply IH; eassumption.
Qed.

(** The mocked runs, computed. *)
Example friendly_run :
  outcome (run Mock.friendly leo_ex_3) = Ok tt /\
  events (run Mock.friendly leo_ex_3) =
    [ Request (call1 leo_ex_3) (Ok Mock.ticket_issued);
      Print "Get a presigned URL for uploading an image: 200";
      Open "/workspace/test.jpg" "rb"
        (Ok {| name := "/workspace/test.jpg"; mode := "rb"; content := [] |});
      Request
        (call2 (VStr Mock.bucket) (VDict [])
           {| name := "/workspace/test.jpg"; mode := "rb"; content := [] |})
        (Ok Mock.stored);
      Print "Upload image via presigned URL: 204";
      Request (call3 leo_ex_3 (VStr "abc123")) (Ok Mock.job_accepted);
      Print "Generation of Images using Image to Image 200";
      Sleep 20;
      Request (call4 Mock.friendly leo_ex_3 (VStr "gen-001")) (Ok Mock.job_status);
      Print "<generation PENDING>" ].
Proof. split; reflexivity. Qed.

Example friendly_times :
  map fst (trace (run Mock.friendly leo_ex_3)) = [0; 1; 2; 3; 4; 5; 6; 7; 28; 29].
Proof. reflexivity. Qed.

(** ** The claims *)

Ltac run_cases E c :=
  let B := fresh "B" in
  pose proof (run_behaviour E c) as B;
  unfold polls, calls in *;
  inversion B;
  repeat match goal with
    | H : _ = events (run E c) |- _ => rewrite <- H in *; clear H
    | H : _ = outcome (run E c) |- _ => rewrite <- H in *; clear H
    end;
  cbn [calls_of call_of] in *.

(** C8. The first operation of every run is a POST to
    [/api/rest/v1/init-image] on the provider's host whose JSON body is the
    dict with the one key [extension], bound to the extension the step is
    given. *)
Theorem request_upload_target_sends_extension (E : env) (c : config) :
  exists q reply,
    hd_error (events (run E c)) = Some (Request q reply) /\
    hd_error (calls (run E c)) = Some (q, reply) /\
    method q = "POST" /\
    url q = VStr ("https://cloud.leonardo.ai" ++ "/api/rest/v1/init-image") /\
    json_ q = Some (VDict [ ("extension", VStr (extension c)) ]) /\
    data q = None /\ files q = None.
Proof.
  run_cases E c; eexists (call1 c), _; repeat split; reflexivity.
Qed.

(** C3. In every run that completes, the HTTP calls are exactly call 1
    (request the upload target), call 2 (upload the file), call 3 (submit the
    generation) and call 4 (poll), in this order and once each, every later
    call built from the replies to the earlier ones. *)
Theorem four_calls_in_fixed_order (E : env) (c : config) :
  outcome (run E c) = Ok tt ->
  exists r1 fields u image_id f r2 r3 generation_id r4,
    ticket E r1 = Ok (fields, u, image_id) /\
    job r3 = Ok generation_id /\
    calls (run E c) =
      [ (call1 c, Ok r1);
        (call2 u fields f, Ok r2);
        (call3 c image_id, Ok r3);
        (call4 E c generation_id, Ok r4) ].
Proof.
  intros Hdone.
  run_cases E c; try discriminate Hdone.
  exists r1, fields, u, image_id, f, r2, r3, generation_id, r4.
  repeat split; assumption.
Qed.

Lemma four_calls_in_fixed_order_witness :
  outcome (run Mock.friendly leo_ex_3) = Ok tt /\
  exists r1 fields u image_id f r2 r3 generation_id r4,
    ticket Mock.friendly r1 = Ok (fields, u, image_id) /\
    job r3 = Ok generation_id /\
    calls (run Mock.friendly leo_ex_3) =
      [ (call1 leo_ex_3, Ok r1);
        (call2 u fields f, Ok r2);
        (call3 leo_ex_3 image_id, Ok r3);
        (call4 Mock.friendly leo_ex_3 generation_id, Ok r4) ].
Proof.
  split; [reflexivity|].
  apply (four_calls_in_fixed_order Mock.friendly leo_ex_3). reflexivity.
Defined.

(** What a ticket is made of, and conversely. *)
Lemma ticket_inv (E : env) (r : response) (fields u image_id : value) :
  ticket E r = Ok (fields, u, image_id) ->
  exists s,
    json_at r "uploadInitImage" "fields" = Ok s /\
    loads E s = Ok fields /\
    json_at r "uploadInitImage" "url" = Ok u /\
    json_at r "uploadInitImage" "id" = Ok image_id.
Proof.
  unfold ticket, and_then. intros H.
  destruct (json_at r "uploadInitImage" "fields") as [s|]; [|discriminate].
  destruct (loads E s) as [x|] eqn:Hx; [|discriminate].
  destruct (json_at r "uploadInitImage" "url") as [y|]; [|discriminate].
  destruct (json_at r "uploadInitImage" "id") as [z|]; [|discriminate].
  inversion H; subst. exists s. repeat split; reflexivity || assumption.
Qed.

Lemma loads_inv (E : env) (v fields : value) :
  loads E v = Ok fields -> exists s, v = VStr s /\ json_loads E s = Some fields.
Proof.
  destruct v; cbn; try discriminate.
  destruct (json_loads E s) eqn:Hs; [|discriminate].
  intros H. inversion H; subst. now exists s.
Qed.

Lemma unusable_no_ticket (E : env) (r : response) :
  fields_unusable E r -> exists e, ticket E r = Exn e.
Proof.
  unfold ticket, and_then. intros [[e He]|[v [Hv Hs]]].
  - rewrite He. now exists e.
  - rewrite Hv. destruct (loads E v) as [x|e] eqn:Hl; [|now exists e].
    apply loads_inv in Hl. destruct Hl as [s [-> Hl]].
    rewrite (Hs s eq_refl) in Hl. discriminate.
Qed.

Lemma lacks_job_raises (r : response) (k : string) :
  lacks_job r k -> job r = Exn (KeyError k).
Proof.
  unfold job, json_at, and_then, getitem.
  intros [d [-> [[Hd ->]|[d' [Hd [Hd' ->]]]]]]; rewrite Hd; [reflexivity|].
  now rewrite Hd'.
Qed.

(** C1. In every run that completes, call 1 was answered by a response
    whose [uploadInitImage.id] is some value, and the JSON payload of call 3
    holds that very value under [init_image_id]. *)
Theorem upload_id_passed_to_generation (E : env) (c : config) :
  outcome (run E c) = Ok tt ->
  exists q1 r1 q3 reply3 image_id payload,
    nth_error (calls (run E c)) 0 = Some (q1, Ok r1) /\
    json_at r1 "uploadInitImage" "id" = Ok image_id /\
    nth_error (calls (run E c)) 2 = Some (q3, reply3) /\
    url q3 = VStr generations_url /\
    json_ q3 = Some payload /\
    getitem payload "init_image_id" = Ok image_id.
Proof.
  intros Hdone.
  run_cases E c; try discriminate Hdone.
  destruct (ticket_inv E r1 fields u image_id) as [s [_ [_ [_ Hid]]]]; [assumption|].
  exists (call1 c), r1, (call3 c image_id), (Ok r3), image_id,
    (generation_payload c image_id).
  repeat split; try reflexivity. exact Hid.
Qed.

Lemma upload_id_passed_to_generation_witness :
  outcome (run Mock.friendly leo_ex_3) = Ok tt /\
  exists q1 r1 q3 reply3 image_id payload,
    nth_error (calls (run Mock.friendly leo_ex_3)) 0 = Some (q1, Ok r1) /\
    json_at r1 "uploadInitImage" "id" = Ok image_id /\
    nth_error (calls (run Mock.friendly leo_ex_3)) 2 = Some (q3, reply3) /\
    url q3 = VStr generations_url /\
    json_ q3 = Some payload /\
    getitem payload "init_image_id" = Ok image_id.
Proof.
  split; [reflexivity|].
  apply (upload_id_passed_to_generation Mock.friendly leo_ex_3). reflexivity.
Defined.

(** The mocked provider of the specification: call 1 returns the upload id
    abc123, and the payload of call 3 carries it. *)
Example mocked_upload_id :
  exists q1 q3 reply3 payload,
    nth_error (calls (run Mock.friendly leo_ex_3)) 0 = Some (q1, Ok Mock.ticket_issued) /\
    json_at Mock.ticket_issued "uploadInitImage" "id" = Ok (VStr "abc123") /\
    nth_error (calls (run Mock.friendly leo_ex_3)) 2 = Some (q3, reply3) /\
    json_ q3 = Some payload /\
    getitem payload "init_image_id" = Ok (VStr "abc123").
Proof. repeat eexists; reflexivity. Qed.

(** C2. In every run that completes, call 3 was answered by a response
    whose [sdGenerationJob.generationId] is some value, and call 4 is a GET
    of the generations URL followed by a slash and that value as ["%s"]
    prints it; an id that is a string is printed as it is, so that the URL
    ends with [/generations/<id>]. *)
Theorem generation_id_in_poll_path (E : env) (c : config) :
  outcome (run E c) = Ok tt ->
  exists q3 r3 q4 reply4 generation_id,
    nth_error (calls (run E c)) 2 = Some (q3, Ok r3) /\
    json_at r3 "sdGenerationJob" "generationId" = Ok generation_id /\
    nth_error (calls (run E c)) 3 = Some (q4, reply4) /\
    method q4 = "GET" /\
    url q4 = VStr (generations_url ++ "/" ++ str E generation_id) /\
    forall g, generation_id = VStr g ->
      exists u, url q4 = VStr u /\ ends_with u ("/generations/" ++ g).
Proof.
  intros Hdone.
  run_cases E c; try discriminate Hdone.
  exists (call3 c image_id), r3, (call4 E c generation_id), (Ok r4), generation_id.
  repeat split; try reflexivity; try assumption.
  intros g ->. eexists. split; [reflexivity|].
  exists "https://cloud.leonardo.ai/api/rest/v1". reflexivity.
Qed.

Lemma generation_id_in_poll_path_witness :
  outcome (run Mock.friendly leo_ex_3) = Ok tt /\
  exists q3 r3 q4 reply4 generation_id,
    nth_error (calls (run Mock.friendly leo_ex_3)) 2 = Some (q3, Ok r3) /\
    json_at r3 "sdGenerationJob" "generationId" = Ok generation_id /\
    nth_error (calls (run Mock.friendly leo_ex_3)) 3 = Some (q4, reply4) /\
    method q4 = "GET" /\
    url q4 = VStr (generations_url ++ "/" ++ str Mock.friendly generation_id) /\
    forall g, generation_id = VStr g ->
      exists u, url q4 = VStr u /\ ends_with u ("/generations/" ++ g).
Proof.
  split; [reflexivity|].
  apply (generation_id_in_poll_path Mock.friendly leo_ex_3). reflexivity.
Defined.

(** The mocked provider of the specification: call 3 returns the
    generation id gen-001, and call 4 goes to a URL that ends with
    /generations/gen-001. *)
Example mocked_generation_id :
  exists q3 q4 reply4,
    nth_error (calls (run Mock.friendly leo_ex_3)) 2 = Some (q3, Ok Mock.job_accepted) /\
    json_at Mock.job_accepted "sdGenerationJob" "generationId" = Ok (VStr "gen-001") /\
    nth_error (calls (run Mock.friendly leo_ex_3)) 3 = Some (q4, reply4) /\
    url q4 = VStr "https://cloud.leonardo.ai/api/rest/v1/generations/gen-001".
Proof. repeat eexists; reflexivity. Qed.

(** C7. Of the calls a run issues, the first, the third and the fourth
    carry the header [authorization] with the bearer token; the second, the
    upload to the presigned URL, is sent without any headers argument. *)
Theorem authorization_on_provider_calls_only (E : env) (c : config)
    (i : nat) (q : request) (reply : result response) :
  nth_error (calls (run E c)) i = Some (q, reply) ->
  (i = 1%nat -> headers q = None) /\
  (i <> 1%nat ->
   exists h, headers q = Some h /\
             lookup "authorization" h = Some ("Bearer " ++ api_key c)).
Proof.
  intros Hi.
  run_cases E c;
    destruct i as [|[|[|[|i]]]]; cbn [nth_error] in Hi;
    try discriminate Hi; try (destruct i; discriminate Hi);
    inversion Hi; subst; clear Hi;
    (split; [ intros Heq; try discriminate Heq; reflexivity
            | intros Hne; try (exfalso; apply Hne; reflexivity);
              exists (the_headers c); split; reflexivity ]).
Qed.

Lemma authorization_on_provider_calls_only_witness :
  nth_error (calls (run Mock.friendly leo_ex_3)) 1
    = Some (call2 (VStr Mock.bucket) (VDict [])
              {| name := "/workspace/test.jpg"; mode := "rb"; content := [] |},
            Ok Mock.stored) /\
  headers (call2 (VStr Mock.bucket) (VDict [])
             {| name := "/workspace/test.jpg"; mode := "rb"; content := [] |}) = None.
Proof.
  split; [reflexivity|].
  refine (proj1 (authorization_on_provider_calls_only Mock.friendly leo_ex_3 1 _
                   (Ok Mock.stored) _) eq_refl).
  reflexivity.
Defined.

(** C9. The upload is sent with, as form data, what [json.loads] makes of
    the string under [uploadInitImage.fields] of call 1's response; and when
    that value is missing, is not a string or does not decode, the run ends
    with an exception after call 1 and its log line, before any upload. *)
Theorem fields_decoded_before_upload (E : env) (c : config) :
  (forall q2 reply2,
     nth_error (calls (run E c)) 1 = Some (q2, reply2) ->
     exists r1 s fields,
       nth_error (calls (run E c)) 0 = Some (call1 c, Ok r1) /\
       json_at r1 "uploadInitImage" "fields" = Ok (VStr s) /\
       json_loads E s = Some fields /\
       data q2 = Some fields) /\
  (forall r1,
     nth_error (calls (run E c)) 0 = Some (call1 c, Ok r1) ->
     fields_unusable E r1 ->
     exists e,
       outcome (run E c) = Exn e /\
       events (run E c) = [ Request (call1 c) (Ok r1); log1 r1 ] /\
       calls (run E c) = [ (call1 c, Ok r1) ]).
Proof.
  split.
  - intros q2 reply2 H2.
    run_cases E c; cbn [nth_error] in H2; try discriminate H2;
      inversion H2; subst; clear H2;
      match goal with
      | Ht : ticket E ?r = Ok _ |- _ =>
          apply ticket_inv in Ht; destruct Ht as [v [Hv [Hl _]]];
          apply loads_inv in Hl; destruct Hl as [s [-> Hl]];
          exists r, s, fields; repeat split; assumption || reflexivity
      end.
  - intros r1' H1 Hbad.
    destruct (unusable_no_ticket E r1' Hbad) as [e' He'].
    run_cases E c; cbn [nth_error] in H1; inversion H1; subst; clear H1;
      try congruence.
    exists e. repeat split.
Qed.

Lemma fields_decoded_before_upload_witness :
  (exists r1 s fields,
     nth_error (calls (run Mock.friendly leo_ex_3)) 0 = Some (call1 leo_ex_3, Ok r1) /\
     json_at r1 "uploadInitImage" "fields" = Ok (VStr s) /\
     json_loads Mock.friendly s = Some fields /\
     data (call2 (VStr Mock.bucket) (VDict [])
             {| name := "/workspace/test.jpg"; mode := "rb"; content := [] |})
       = Some fields) /\
  (exists e,
     outcome (run Mock.garbled leo_ex_3) = Exn e /\
     events (run Mock.garbled leo_ex_3) =
       [ Request (call1 leo_ex_3) (Ok Mock.ticket_garbled);
         log1 Mock.ticket_garbled ] /\
     calls (run Mock.garbled leo_ex_3) = [ (call1 leo_ex_3, Ok Mock.ticket_garbled) ]).
Proof.
  split.
  - apply (proj1 (fields_decoded_before_upload Mock.friendly leo_ex_3) _ (Ok Mock.stored)).
    reflexivity.
  - apply (proj2 (fields_decoded_before_upload Mock.garbled leo_ex_3)).
    + reflexivity.
    + right. exists (VStr "key=1"). split; [reflexivity|].
      intros s Hs. inversion Hs; subst. reflexivity.
Defined.

(** C10. When the response to call 3 has a body without the key
    [sdGenerationJob], or without [generationId] under it, the run ends with
    the KeyError of that key: there is no sleep and no poll, and the calls
    made are exactly calls 1, 2 and 3, all of them answered. *)
Theorem missing_job_stops_before_sleep (E : env) (c : config)
    (q3 : request) (r3 : response) (k : string) :
  nth_error (calls (run E c)) 2 = Some (q3, Ok r3) ->
  lacks_job r3 k ->
  outcome (run E c) = Exn (KeyError k) /\
  (forall secs, ~ In (Sleep secs) (events (run E c))) /\
  polls (run E c) = [] /\
  exists r1 fields u image_id f r2,
    calls (run E c) =
      [ (call1 c, Ok r1); (call2 u fields f, Ok r2); (call3 c image_id, Ok r3) ].
Proof.
  intros H3 Hlacks.
  apply lacks_job_raises in Hlacks.
  run_cases E c; cbn [nth_error] in H3; try discriminate H3;
    inversion H3; subst; clear H3; try congruence.
  match goal with
  | Hjob : job r3 = Exn ?e |- _ =>
      rewrite Hlacks in Hjob; inversion Hjob; subst; clear Hjob
  end.
  split; [reflexivity|]. split.
  - intros secs Hin. cbn [In] in Hin.
    repeat (destruct Hin as [Hin|Hin]; [discriminate Hin|]). exact Hin.
  - split; [reflexivity|].
    exists r1, fields, u, image_id, f, r2. reflexivity.
Qed.

Lemma missing_job_stops_before_sleep_witness :
  outcome (run Mock.rejecting leo_ex_3) = Exn (KeyError "sdGenerationJob") /\
  (forall secs, ~ In (Sleep secs) (events (run Mock.rejecting leo_ex_3))) /\
  polls (run Mock.rejecting leo_ex_3) = [] /\
  exists r1 fields u image_id f r2,
    calls (run Mock.rejecting leo_ex_3) =
      [ (call1 leo_ex_3, Ok r1); (call2 u fields f, Ok r2);
        (call3 leo_ex_3 image_id, Ok (Mock.refused 400)) ].
Proof.
  apply (missing_job_stops_before_sleep Mock.rejecting leo_ex_3
           (call3 leo_ex_3 (VStr "abc123")) (Mock.refused 400) "sdGenerationJob").
  - reflexivity.
  - exists [ ("error", VStr "refused") ]. split; [reflexivity|].
    left. split; reflexivity.
Defined.

Ltac step E :=
  first
    [ rewrite !bind_request
    | rewrite !bind_print
    | rewrite !bind_lift
    | rewrite !bind_open
    | rewrite !bind_sleep
    | match goal with
      | |- context [match send E ?l ?q with _ => _ end] => destruct (send E l q)
      | |- context [match open_file E ?l ?p ?m with _ => _ end] =>
          destruct (open_file E l p m)
      | |- context [match and_then ?r ?k with _ => _ end] => destruct (and_then r k)
      | |- context [match json_at ?r ?a ?b with _ => _ end] => destruct (json_at r a b)
      end ].

(** C4, as stated, fails: a provider that refuses call 1 with status 401
    and an error body makes line 24 raise a KeyError, and no upload is
    attempted. *)
Lemma refused_call1_raises_before_upload :
  nth_error (calls (run Mock.unauthorized leo_ex_3)) 0
    = Some (call1 leo_ex_3, Ok (Mock.refused 401)) /\
  status_code (Mock.refused 401) = 401 /\
  outcome (run Mock.unauthorized leo_ex_3) = Exn (KeyError "uploadInitImage") /\
  ~ reaches_upload (run Mock.unauthorized leo_ex_3).
Proof.
  repeat split.
  intros [qr Hqr]. discriminate Hqr.
Qed.

(** C4, amended. The status code of call 1's response is logged and never
    inspected.  When the provider answers call 1 with a response [r1] of
    any status, the second operation of the run is the log line of that
    status; and when moreover the body of [r1] yields the ticket (a fields
    string that decodes, a url and an id) and the outside lets the file be
    opened, the run goes on to open the file and to issue the upload to
    that url with those fields. *)
Theorem status_logged_not_inspected (E : env) (c : config) (r1 : response) :
  send E [] (call1 c) = Ok r1 ->
  nth_error (events (run E c)) 1 = Some (log1 r1) /\
  forall fields u image_id f,
    ticket E r1 = Ok (fields, u, image_id) ->
    open_file E (log_at_open E c r1) (image_file_path c) "rb" = Ok f ->
    exists reply2 rest,
      events (run E c) =
        Request (call1 c) (Ok r1) :: log1 r1 :: opening c (Ok f)
          :: Request (call2 u fields f) reply2 :: rest.
Proof.
  intros Hsend.
  unfold events, trace, run.
  fold (done (snd (script E c start))).
  unfold script, requests_post, requests_get.
  fold (call1 c).
  rewrite bind_request.
  change (send E (entries start) (call1 c)) with (send E [] (call1 c)).
  rewrite Hsend, bind_print.
  split.
  - repeat step E;
      unfold print, perform;
      cbn [fst snd]; rewrite ?done_advance, done_start;
      reflexivity.
  - intros fields u image_id f Ht Hopen.
    apply ticket_inv in Ht. destruct Ht as [s [Hf [Hl [Hu Hi]]]].
    rewrite bind_lift, Hf. cbn [and_then]. rewrite Hl.
    rewrite bind_lift, Hu.
    rewrite bind_lift, Hi.
    rewrite bind_open.
    unfold log_at_open, log1 in Hopen. rewrite Hopen.
    repeat step E;
      unfold print, perform;
      cbn [fst snd]; rewrite ?done_advance, done_start; cbn [app];
      eexists _, _; reflexivity.
Qed.

Lemma status_logged_not_inspected_witness :
  nth_error (events (run Mock.confused leo_ex_3)) 1
    = Some (Print "Get a presigned URL for uploading an image: 500") /\
  exists reply2 rest,
    events (run Mock.confused leo_ex_3) =
      Request (call1 leo_ex_3)
        (Ok {| status_code := 500; json := json Mock.ticket_issued; text := "" |})
      :: Print "Get a presigned URL for uploading an image: 500"
      :: opening leo_ex_3
           (Ok {| name := "/workspace/test.jpg"; mode := "rb"; content := [] |})
      :: Request
           (call2 (VStr Mock.bucket) (VDict [])
              {| name := "/workspace/test.jpg"; mode := "rb"; content := [] |})
           reply2
      :: rest.
Proof.
  pose proof (status_logged_not_inspected Mock.confused leo_ex_3
                {| status_code := 500; json := json Mock.ticket_issued; text := "" |}
                eq_refl) as [Hlog Hup].
  split; [exact Hlog|].
  apply (Hup (VDict []) (VStr Mock.bucket) (VStr "abc123")).
  - reflexivity.
  - reflexivity.
Defined.

(** Splitting a list of timed entries along the list of its events. *)
Lemma map_snd_cons_inv (l : list (Z * event)) (ev : event) (evs : list event) :
  ev :: evs = map snd l ->
  exists t l', l = (t, ev) :: l' /\ evs = map snd l'.
Proof.
  destruct l as [|[t x] l']; cbn; intros H; inversion H; subst.
  now exists t, l'.
Qed.

Lemma map_snd_nil_inv (l : list (Z * event)) : [] = map snd l -> l = [].
Proof. destruct l; [reflexivity|discriminate]. Qed.

Ltac peel H :=
  repeat match type of H with
    | _ :: _ = map snd ?l =>
        let t := fresh "t" in
        let l' := fresh "l" in
        let Hl := fresh "Hl" in
        apply map_snd_cons_inv in H; destruct H as [t [l' [Hl H]]];
        try rewrite Hl in *; clear Hl
    | [] = map snd ?l => apply map_snd_nil_inv in H; try rewrite H in *
    end.

(** C6, as stated, fails: a run in which call 3 is refused handles that
    response and then raises on line 56; it never sleeps and makes no poll
    request at all. *)
Lemma refused_call3_makes_no_poll :
  nth_error (calls (run Mock.rejecting leo_ex_3)) 2
    = Some (call3 leo_ex_3 (VStr "abc123"), Ok (Mock.refused 400)) /\
  outcome (run Mock.rejecting leo_ex_3) = Exn (KeyError "sdGenerationJob") /\
  List.length (polls (run Mock.rejecting leo_ex_3)) <> 1%nat.
Proof.
  repeat split. cbn. discriminate.
Qed.

(** C6, amended. Every run that completes makes a poll request, and in
    every run that makes one, the poll is the only one; it is issued right
    after a sleep of 20 that follows the log line for call 3's response, and
    at least 20 time units lie between the issuing of the sleep, when the
    handling of that response is over, and the issuing of the poll. *)
Theorem one_poll_after_fixed_delay (E : env) (c : config) :
  (outcome (run E c) = Ok tt -> polls (run E c) <> []) /\
  (polls (run E c) <> [] ->
   exists pre image_id r3 generation_id reply4 post tc t3 ts tg,
     trace (run E c) =
       (pre ++ (tc, Request (call3 c image_id) (Ok r3))
            :: (t3, log3 r3)
            :: (ts, Sleep 20)
            :: (tg, Request (call4 E c generation_id) reply4)
            :: post)%list /\
     job r3 = Ok generation_id /\
     tc <= t3 /\ t3 <= ts /\ ts + 20 <= tg /\
     polls (run E c) = [ (call4 E c generation_id, reply4) ]).
Proof.
  pose proof (run_behaviour E c) as B.
  pose proof (run_paced E c) as P.
  unfold polls, calls.
  remember (outcome (run E c)) as o eqn:Ho.
  remember (events (run E c)) as evs eqn:Hevs.
  split.
  - intros ->. inversion B; subst. cbn. discriminate.
  - intros Hpoll.
    destruct B; cbn in Hpoll; try (exfalso; apply Hpoll; reflexivity);
      unfold events in Hevs; unfold trace in *;
      remember (rev (entries (snd (run E c)))) as tr eqn:Htr;
      symmetry in Htr; peel Hevs.
    + exists [ (t, Request (call1 c) (Ok r1)); (t0, log1 r1); (t1, opening c (Ok f));
               (t2, Request (call2 u fields f) (Ok r2)); (t3, log2 r2) ],
        image_id, r3, generation_id, (Exn e), [], t4, t5, t6, t7.
      split; [reflexivity|]. split; [assumption|].
      pose proof (paced_trace _ _
                    [ (t, Request (call1 c) (Ok r1)); (t0, log1 r1);
                      (t1, opening c (Ok f));
                      (t2, Request (call2 u fields f) (Ok r2)); (t3, log2 r2) ]
                    _ _ _ _ _ P Htr) as H45.
      pose proof (paced_trace _ _
                    [ (t, Request (call1 c) (Ok r1)); (t0, log1 r1);
                      (t1, opening c (Ok f));
                      (t2, Request (call2 u fields f) (Ok r2)); (t3, log2 r2);
                      (t4, Request (call3 c image_id) (Ok r3)) ]
                    _ _ _ _ _ P Htr) as H56.
      pose proof (paced_trace _ _
                    [ (t, Request (call1 c) (Ok r1)); (t0, log1 r1);
                      (t1, opening c (Ok f));
                      (t2, Request (call2 u fields f) (Ok r2)); (t3, log2 r2);
                      (t4, Request (call3 c image_id) (Ok r3)); (t5, log3 r3) ]
                    _ _ _ _ _ P Htr) as H67.
      cbn [lasts log3] in H45, H56, H67.
      repeat split; try lia.
    + exists [ (t, Request (call1 c) (Ok r1)); (t0, log1 r1); (t1, opening c (Ok f));
               (t2, Request (call2 u fields f) (Ok r2)); (t3, log2 r2) ],
        image_id, r3, generation_id, (Ok r4), [ (t8, Print (text r4)) ], t4, t5, t6, t7.
      split; [reflexivity|]. split; [assumption|].
      pose proof (paced_trace _ _
                    [ (t, Request (call1 c) (Ok r1)); (t0, log1 r1);
                      (t1, opening c (Ok f));
                      (t2, Request (call2 u fields f) (Ok r2)); (t3, log2 r2) ]
                    _ _ _ _ _ P Htr) as H45.
      pose proof (paced_trace _ _
                    [ (t, Request (call1 c) (Ok r1)); (t0, log1 r1);
                      (t1, opening c (Ok f));
                      (t2, Request (call2 u fields f) (Ok r2)); (t3, log2 r2);
                      (t4, Request (call3 c image_id) (Ok r3)) ]
                    _ _ _ _ _ P Htr) as H56.
      pose proof (paced_trace _ _
                    [ (t, Request (call1 c) (Ok r1)); (t0, log1 r1);
                      (t1, opening c (Ok f));
                      (t2, Request (call2 u fields f) (Ok r2)); (t3, log2 r2);
                      (t4, Request (call3 c image_id) (Ok r3)); (t5, log3 r3) ]
                    _ _ _ _ _ P Htr) as H67.
      cbn [lasts log3] in H45, H56, H67.
      repeat split; try lia.
Qed.

Lemma one_poll_after_fixed_delay_witness :
  polls (run Mock.friendly leo_ex_3) <> [] /\
  exists pre image_id r3 generation_id reply4 post tc t3 ts tg,
    trace (run Mock.friendly leo_ex_3) =
      (pre ++ (tc, Request (call3 leo_ex_3 image_id) (Ok r3))
           :: (t3, log3 r3)
           :: (ts, Sleep 20)
           :: (tg, Request (call4 Mock.friendly leo_ex_3 generation_id) reply4)
           :: post)%list /\
    job r3 = Ok generation_id /\
    tc <= t3 /\ t3 <= ts /\ ts + 20 <= tg /\
    polls (run Mock.friendly leo_ex_3) =
      [ (call4 Mock.friendly leo_ex_3 generation_id, reply4) ].
Proof.
  assert (H : polls (run Mock.friendly leo_ex_3) <> []).
  { apply (proj1 (one_poll_after_fixed_delay Mock.friendly leo_ex_3)). reflexivity. }
  split; [exact H|].
  exact (proj2 (one_poll_after_fixed_delay Mock.friendly leo_ex_3) H).
Defined.

(** C5. Whenever a run issues call 3, its JSON payload holds the
    configured init strength as it is, whatever its value; and whether call
    3 is issued does not depend on that value: with any other init strength
    the first two calls and their replies are the same, and a third call is
    issued in the one run exactly when it is in the other. *)
Theorem init_strength_forwarded_unchecked (E : env) (c : config) :
  (forall q3 reply3,
     nth_error (calls (run E c)) 2 = Some (q3, reply3) ->
     exists payload,
       url q3 = VStr generations_url /\
       json_ q3 = Some payload /\
       getitem payload "init_strength" = Ok (VFloat (init_strength c))) /\
  (forall s,
     firstn 2 (calls (run E (with_init_strength s c))) = firstn 2 (calls (run E c)) /\
     ((exists qr, nth_error (calls (run E (with_init_strength s c))) 2 = Some qr) <->
      (exists qr, nth_error (calls (run E c)) 2 = Some qr))).
Proof.
  split.
  - intros q3 reply3 H3.
    run_cases E c; cbn [nth_error] in H3; try discriminate H3;
      inversion H3; subst; clear H3;
      exists (generation_payload c image_id); repeat split.
  - intros s.
    unfold calls, events, trace, run.
    fold (done (snd (script E (with_init_strength s c) start))).
    fold (done (snd (script E c start))).
    unfold script, requests_post, requests_get.
    unfold the_headers, authorization, init_image_payload, generation_payload.
    cbn [with_init_strength api_key extension image_file_path height modelId
         prompt width init_strength].
    repeat step E;
      unfold print, perform;
      cbn [fst snd]; rewrite ?done_advance, done_start;
      cbn [app calls_of call_of firstn nth_error];
      (split; [ reflexivity | ]);
      first [ reflexivity
            | split; intros _; eexists; reflexivity ].
Qed.

Lemma init_strength_forwarded_unchecked_witness :
  exists payload,
    url (call3 (with_init_strength 5 leo_ex_3) (VStr "abc123")) = VStr generations_url /\
    json_ (call3 (with_init_strength 5 leo_ex_3) (VStr "abc123")) = Some payload /\
    getitem payload "init_strength"
      = Ok (VFloat (init_strength (with_init_strength 5 leo_ex_3))).
Proof.
  apply (proj1 (init_strength_forwarded_unchecked Mock.friendly
                  (with_init_strength 5 leo_ex_3))
           _ (Ok Mock.job_accepted)).
  reflexivity.
Defined.

(** ** Further properties of the script *)

(** X1. The upload goes where call 1's response says: whenever a second
    call is issued, it is a POST to the value under [uploadInitImage.url]
    of that response, without a JSON body, with the one file part [file]
    bound to the handle that opening the image path returned. *)
Theorem upload_goes_to_presigned_url (E : env) (c : config)
    (q2 : request) (reply2 : result response) :
  nth_error (calls (run E c)) 1 = Some (q2, reply2) ->
  exists r1 u f,
    nth_error (calls (run E c)) 0 = Some (call1 c, Ok r1) /\
    json_at r1 "uploadInitImage" "url" = Ok u /\
    method q2 = "POST" /\
    url q2 = u /\
    json_ q2 = None /\
    files q2 = Some [ ("file", f) ] /\
    nth_error (events (run E c)) 2 = Some (Open (image_file_path c) "rb" (Ok f)).
Proof.
  intros H2.
  run_cases E c; cbn [nth_error] in H2; try discriminate H2;
    inversion H2; subst; clear H2;
    match goal with
    | Ht : ticket E ?r = Ok _ |- _ =>
        apply ticket_inv in Ht; destruct Ht as [v [_ [_ [Hu _]]]];
        exists r, u, f; repeat split; assumption || reflexivity
    end.
Qed.

Lemma upload_goes_to_presigned_url_witness :
  exists r1 u f,
    nth_error (calls (run Mock.friendly leo_ex_3)) 0 = Some (call1 leo_ex_3, Ok r1) /\
    json_at r1 "uploadInitImage" "url" = Ok u /\
    method (call2 (VStr Mock.bucket) (VDict [])
              {| name := "/workspace/test.jpg"; mode := "rb"; content := [] |}) = "POST" /\
    url (call2 (VStr Mock.bucket) (VDict [])
           {| name := "/workspace/test.jpg"; mode := "rb"; content := [] |}) = u /\
    json_ (call2 (VStr Mock.bucket) (VDict [])
             {| name := "/workspace/test.jpg"; mode := "rb"; content := [] |}) = None /\
    files (call2 (VStr Mock.bucket) (VDict [])
             {| name := "/workspace/test.jpg"; mode := "rb"; content := [] |})
      = Some [ ("file", f) ] /\
    nth_error (events (run Mock.friendly leo_ex_3)) 2
      = Some (Open (image_file_path leo_ex_3) "rb" (Ok f)).
Proof.
  apply (upload_goes_to_presigned_url Mock.friendly leo_ex_3 _ (Ok Mock.stored)).
  reflexivity.
Defined.

(** X2. The image file is opened only once the ticket has been read off
    call 1's response, always at the configured path in mode [rb]; and when
    the opening raises, the run ends with that exception having made call 1
    and no other call. *)
Theorem file_opened_after_ticket (E : env) (c : config)
    (path md : string) (reply : result file) :
  In (Open path md reply) (events (run E c)) ->
  path = image_file_path c /\ md = "rb" /\
  exists r1 fields u image_id,
    nth_error (calls (run E c)) 0 = Some (call1 c, Ok r1) /\
    ticket E r1 = Ok (fields, u, image_id) /\
    forall e, reply = Exn e ->
      outcome (run E c) = Exn e /\ calls (run E c) = [ (call1 c, Ok r1) ].
Proof.
  intros Hin.
  run_cases E c; cbn [In] in Hin;
    repeat match type of Hin with
      | _ \/ _ => destruct Hin as [Hin|Hin]; [try discriminate Hin|]
      | False => destruct Hin
      end;
    inversion Hin; subst; clear Hin;
    (split; [reflexivity|]); (split; [reflexivity|]);
    exists r1, fields, u, image_id;
    (split; [reflexivity|]); (split; [assumption|]);
    intros e' He'; try discriminate He';
    inversion He'; subst; split; reflexivity.
Qed.

Lemma file_opened_after_ticket_witness :
  image_file_path leo_ex_3 = image_file_path leo_ex_3 /\ "rb" = "rb" /\
  exists r1 fields u image_id,
    nth_error (calls (run without_image leo_ex_3)) 0 = Some (call1 leo_ex_3, Ok r1) /\
    ticket without_image r1 = Ok (fields, u, image_id) /\
    forall e, (Exn (OSError "No such file or directory") : result file) = Exn e ->
      outcome (run without_image leo_ex_3) = Exn e /\
      calls (run without_image leo_ex_3) = [ (call1 leo_ex_3, Ok r1) ].
Proof.
  apply (file_opened_after_ticket without_image leo_ex_3
           (image_file_path leo_ex_3) "rb" (Exn (OSError "No such file or directory"))).
  cbn. right. right. left. reflexivity.
Defined.

(** X3. The answer to the upload is not checked: whatever response call 2
    returns, with any status and any body, the run logs its status and
    issues call 3 with the upload id of call 1. *)
Theorem upload_answer_not_checked (E : env) (c : config)
    (q2 : request) (r2 : response) :
  nth_error (calls (run E c)) 1 = Some (q2, Ok r2) ->
  exists r1 image_id reply3,
    nth_error (calls (run E c)) 0 = Some (call1 c, Ok r1) /\
    json_at r1 "uploadInitImage" "id" = Ok image_id /\
    nth_error (events (run E c)) 4 = Some (log2 r2) /\
    nth_error (events (run E c)) 5 = Some (Request (call3 c image_id) reply3) /\
    nth_error (calls (run E c)) 2 = Some (call3 c image_id, reply3).
Proof.
  intros H2.
  run_cases E c; cbn [nth_error] in H2; try discriminate H2;
    inversion H2; subst; clear H2;
    match goal with
    | Ht : ticket E ?r = Ok _ |- _ =>
        apply ticket_inv in Ht; destruct Ht as [v [_ [_ [_ Hi]]]];
        exists r, image_id; eexists; repeat split; eassumption || reflexivity
    end.
Qed.

Lemma upload_answer_not_checked_witness :
  exists r1 image_id reply3,
    nth_error (calls (run failing_bucket leo_ex_3)) 0 = Some (call1 leo_ex_3, Ok r1) /\
    json_at r1 "uploadInitImage" "id" = Ok image_id /\
    nth_error (events (run failing_bucket leo_ex_3)) 4 = Some (log2 failed_upload) /\
    nth_error (events (run failing_bucket leo_ex_3)) 5
      = Some (Request (call3 leo_ex_3 image_id) reply3) /\
    nth_error (calls (run failing_bucket leo_ex_3)) 2
      = Some (call3 leo_ex_3 image_id, reply3).
Proof.
  apply (upload_answer_not_checked failing_bucket leo_ex_3
           (call2 (VStr Mock.bucket) (VDict [])
              {| name := "/workspace/test.jpg"; mode := "rb"; content := [] |})
           failed_upload).
  reflexivity.
Defined.

(** X4. A run prints one line for each call that was answered, in the
    order of the calls, and nothing else: the status code for the first
    three calls, the text of the response for the fourth. *)
Theorem one_line_per_answered_call (E : env) (c : config) :
  printed (run E c) = reports 0 (calls (run E c)).
Proof.
  unfold printed.
  run_cases E c; reflexivity.
Qed.

(** X5. No exception is caught: a call or an opening that raises is the
    last operation of its run, and the run ends with that exception. *)
Theorem raising_operation_ends_run (E : env) (c : config)
    (i : nat) (ev : event) (e : exn) :
  nth_error (events (run E c)) i = Some ev ->
  failing ev = Some e ->
  outcome (run E c) = Exn e /\ List.length (events (run E c)) = S i.
Proof.
  intros Hi Hev.
  run_cases E c;
    do 10 (destruct i as [|i];
           [ cbn [nth_error] in Hi; inversion Hi; subst; clear Hi;
             cbn in Hev; try discriminate Hev; inversion Hev; subst;
             split; reflexivity
           | cbn [nth_error] in Hi ]);
    try discriminate Hi; destruct i; discriminate Hi.
Qed.

(** The image is missing: the opening raises and is the third and last
    operation. *)
Lemma raising_operation_ends_run_witness :
  outcome (run without_image leo_ex_3) = Exn (OSError "No such file or directory") /\
  List.length (events (run without_image leo_ex_3)) = 3%nat.
Proof.
  apply (raising_operation_ends_run without_image leo_ex_3 2
           (Open "/workspace/test.jpg" "rb" (Exn (OSError "No such file or directory")))).
  - reflexivity.
  - reflexivity.
Defined.

(** X6. The exception of a run that raises has one of three origins: the
    last operation raised it (a call or the opening of the file), or lines
    24 to 29 raised it on call 1's response right after its log line, or
    line 56 raised it on call 3's response right after its log line. *)
Theorem origin_of_exception (E : env) (c : config) (e : exn) :
  outcome (run E c) = Exn e ->
  exists pre ev,
    events (run E c) = (pre ++ [ev])%list /\
    (failing ev = Some e \/
     (exists r1, pre = [ Request (call1 c) (Ok r1) ] /\ ev = log1 r1 /\
                 ticket E r1 = Exn e) \/
     (exists q3 r3 pre', pre = (pre' ++ [ Request q3 (Ok r3) ])%list /\
                         List.length pre' = 5%nat /\ ev = log3 r3 /\
                         job r3 = Exn e)).
Proof.
  intros Hout.
  run_cases E c; inversion Hout; subst; clear Hout.
  - exists [], (Request (call1 c) (Exn e)). split; [reflexivity|]. left. reflexivity.
  - exists [ Request (call1 c) (Ok r1) ], (log1 r1). split; [reflexivity|].
    right. left. exists r1. repeat split. assumption.
  - eexists [ _; _ ], _. split; [reflexivity|]. left. reflexivity.
  - eexists [ _; _; _ ], _. split; [reflexivity|]. left. reflexivity.
  - eexists [ _; _; _; _; _ ], _. split; [reflexivity|]. left. reflexivity.
  - eexists [ _; _; _; _; _; _ ], _. split; [reflexivity|].
    right. right. eexists _, r3, [ _; _; _; _; _ ].
    repeat split. assumption.
  - eexists [ _; _; _; _; _; _; _; _ ], _. split; [reflexivity|]. left. reflexivity.
Qed.

Lemma origin_of_exception_witness :
  exists pre ev,
    events (run Mock.rejecting leo_ex_3) = (pre ++ [ev])%list /\
    (failing ev = Some (KeyError "sdGenerationJob") \/
     (exists r1, pre = [ Request (call1 leo_ex_3) (Ok r1) ] /\ ev = log1 r1 /\
                 ticket Mock.rejecting r1 = Exn (KeyError "sdGenerationJob")) \/
     (exists q3 r3 pre', pre = (pre' ++ [ Request q3 (Ok r3) ])%list /\
                         List.length pre' = 5%nat /\ ev = log3 r3 /\
                         job r3 = Exn (KeyError "sdGenerationJob"))).
Proof.
  apply (origin_of_exception Mock.rejecting leo_ex_3 (KeyError "sdGenerationJob")).
  reflexivity.
Defined.

(** X7. A run completes exactly when its fourth call is answered: the
    answer to the poll is printed as it is, whatever its status and body,
    and that line is the tenth and last operation. *)
Theorem completes_iff_poll_answered (E : env) (c : config) :
  (outcome (run E c) = Ok tt <->
   exists q4 r4, nth_error (calls (run E c)) 3 = Some (q4, Ok r4)) /\
  (forall q4 r4,
     nth_error (calls (run E c)) 3 = Some (q4, Ok r4) ->
     nth_error (events (run E c)) 9 = Some (Print (text r4)) /\
     List.length (events (run E c)) = 10%nat).
Proof.
  split; [split|].
  - intros Hout. run_cases E c; try discriminate Hout.
    exists (call4 E c generation_id), r4. reflexivity.
  - intros [q4 [r4 H4]].
    run_cases E c; cbn [nth_error] in H4; try discriminate H4. reflexivity.
  - intros q4 r4 H4.
    run_cases E c; cbn [nth_error] in H4; try discriminate H4.
    inversion H4; subst. split; reflexivity.
Qed.

Lemma completes_iff_poll_answered_witness :
  nth_error (events (run Mock.friendly leo_ex_3)) 9
    = Some (Print (text Mock.job_status)) /\
  List.length (events (run Mock.friendly leo_ex_3)) = 10%nat.
Proof.
  apply (proj2 (completes_iff_poll_answered Mock.friendly leo_ex_3)
           (call4 Mock.friendly leo_ex_3 (VStr "gen-001")) Mock.job_status).
  reflexivity.
Defined.

(** X8. Whatever the outside does, a run makes at most four calls, whose
    methods are an initial part of POST, POST, POST, GET; it opens at most
    one file and sleeps at most once, for 20. *)
Theorem bounded_effort (E : env) (c : config) :
  (exists n, map (fun qr => method (fst qr)) (calls (run E c))
             = firstn n [ "POST"; "POST"; "POST"; "GET" ]) /\
  (List.length (filter is_open (events (run E c))) <= 1)%nat /\
  (List.length (filter is_sleep (events (run E c))) <= 1)%nat /\
  (forall secs, In (Sleep secs) (events (run E c)) -> secs = 20).
Proof.
  split; [|split; [|split]].
  - run_cases E c;
      [ exists 1%nat | exists 1%nat | exists 1%nat | exists 2%nat
      | exists 3%nat | exists 3%nat | exists 4%nat | exists 4%nat ];
      reflexivity.
  - run_cases E c; cbn; lia.
  - run_cases E c; cbn; lia.
  - intros secs Hin.
    run_cases E c; cbn [In] in Hin;
      repeat match type of Hin with
        | _ \/ _ => destruct Hin as [Hin|Hin]; [try discriminate Hin|]
        | False => destruct Hin
        end;
      inversion Hin; reflexivity.
Qed.

Lemma bounded_effort_witness :
  In (Sleep 20) (events (run Mock.friendly leo_ex_3)) /\ 20 = 20.
Proof.
  assert (H : In (Sleep 20) (events (run Mock.friendly leo_ex_3))).
  { cbn. do 7 right. left. reflexivity. }
  split; [exact H|].
  exact (proj2 (proj2 (proj2 (bounded_effort Mock.friendly leo_ex_3))) 20 H).
Defined.

(** X9. The headers with the bearer token are passed only together with
    a url argument that the script itself builds: the init-image URL, the
    generations URL, or the generations URL followed by a slash and the
    text of the generation id that call 3's response gave.  That final
    text is the only part of such a url that a response decides.  This is
    about the url string handed to [requests], not about where a server
    resolves it. *)
Theorem headers_only_with_script_urls (E : env) (c : config)
    (q : request) (reply : result response) (h : dict string) :
  In (q, reply) (calls (run E c)) ->
  headers q = Some h ->
  lookup "authorization" h = Some ("Bearer " ++ api_key c) /\
  (url q = VStr init_image_url \/
   url q = VStr generations_url \/
   exists q3 r3 generation_id,
     nth_error (calls (run E c)) 2 = Some (q3, Ok r3) /\
     job r3 = Ok generation_id /\
     url q = VStr (generations_url ++ "/" ++ str E generation_id)).
Proof.
  intros Hin Hh.
  run_cases E c;
    cbn [In calls_of call_of log1 log2 log3 opening] in Hin;
    repeat match type of Hin with
      | _ \/ _ => destruct Hin as [Hin|Hin]
      | False => destruct Hin
      end.
  all: inversion Hin; subst; clear Hin.
  all: cbn [headers call1 call2 call3 call4] in Hh; try discriminate Hh.
  all: inversion Hh; subst; clear Hh.
  all: split; [reflexivity|].
  all: first
         [ left; reflexivity
         | right; left; reflexivity
         | right; right; eexists _, _, _;
           split; [reflexivity|]; split; [eassumption|reflexivity] ].
Qed.

Lemma headers_only_with_script_urls_witness :
  lookup "authorization" (the_headers leo_ex_3)
    = Some ("Bearer " ++ api_key leo_ex_3) /\
  (url (call4 Mock.friendly leo_ex_3 (VStr "gen-001")) = VStr init_image_url \/
   url (call4 Mock.friendly leo_ex_3 (VStr "gen-001")) = VStr generations_url \/
   exists q3 r3 generation_id,
     nth_error (calls (run Mock.friendly leo_ex_3)) 2 = Some (q3, Ok r3) /\
     job r3 = Ok generation_id /\
     url (call4 Mock.friendly leo_ex_3 (VStr "gen-001"))
       = VStr (generations_url ++ "/" ++ str Mock.friendly generation_id)).
Proof.
  apply (headers_only_with_script_urls Mock.friendly leo_ex_3
           (call4 Mock.friendly leo_ex_3 (VStr "gen-001")) (Ok Mock.job_status)).
  - cbn. do 3 right. left. reflexivity.
  - reflexivity.
Defined.

(** Pacing, for all neighbours of a trace at once. *)
Lemma spaced_of_neighbours (l : list (Z * event)) :
  (forall pre t1 e1 t2 e2 post,
     l = (pre ++ (t1, e1) :: (t2, e2) :: post)%list -> t1 + lasts e1 <= t2) ->
  spaced l.
Proof.
  induction l as [|[t1 e1] l IH]; intros H; [exact I|].
  cbn [spaced]. destruct l as [|[t2 e2] l']; [exact I|].
  split.
  - apply (H [] t1 e1 t2 e2 l'). reflexivity.
  - apply IH. intros pre a ea b eb post Heq.
    apply (H ((t1, e1) :: pre) a ea b eb post). rewrite Heq. reflexivity.
Qed.

Lemma run_spaced (E : env) (c : config) : spaced (trace (run E c)).
Proof.
  apply spaced_of_neighbours. intros pre t1 e1 t2 e2 post Heq.
  eapply paced_trace; [apply run_paced|]. exact Heq.
Qed.

(** X10. The log is in the order of time: no operation is issued before
    the one logged before it; and a run that completes lasts at least the
    20 of its sleep, counted from its first call to its last line. *)
Theorem run_takes_its_time (E : env) (c : config) :
  (forall i t1 e1 t2 e2,
     nth_error (trace (run E c)) i = Some (t1, e1) ->
     nth_error (trace (run E c)) (S i) = Some (t2, e2) ->
     t1 <= t2) /\
  (outcome (run E c) = Ok tt ->
   exists t0 e0 t9 e9,
     nth_error (trace (run E c)) 0 = Some (t0, e0) /\
     nth_error (trace (run E c)) 9 = Some (t9, e9) /\
     t0 + 20 <= t9).
Proof.
  pose proof (run_behaviour E c) as B.
  pose proof (run_spaced E c) as S.
  remember (outcome (run E c)) as o eqn:Ho.
  remember (events (run E c)) as evs eqn:Hevs.
  unfold events in Hevs.
  remember (trace (run E c)) as tr eqn:Htr.
  split.
  - intros i t1 e1 t2 e2 H1 H2.
    destruct B; peel Hevs; cbn [spaced lasts log1 log2 log3 opening] in S;
      do 10 (destruct i as [|i];
             [ cbn [nth_error] in H1, H2;
               try discriminate H2;
               inversion H1; inversion H2; subst; lia
             | cbn [nth_error] in H1, H2 ]);
      try discriminate H1; destruct i; discriminate H1.
  - destruct B; intros Hok; try discriminate Hok.
    peel Hevs. cbn [spaced lasts log1 log2 log3 opening] in S.
    eexists _, _, _, _. split; [reflexivity|]. split; [reflexivity|]. lia.
Qed.

Lemma run_takes_its_time_witness :
  exists t0 e0 t9 e9,
    nth_error (trace (run Mock.friendly leo_ex_3)) 0 = Some (t0, e0) /\
    nth_error (trace (run Mock.friendly leo_ex_3)) 9 = Some (t9, e9) /\
    t0 + 20 <= t9.
Proof.
  apply (proj2 (run_takes_its_time Mock.friendly leo_ex_3)). reflexivity.
Defined.

Lemma ticket_failure_ends_run (E : env) (c : config) (r1 : response) (e : exn) :
  nth_error (calls (run E c)) 0 = Some (call1 c, Ok r1) ->
  ticket E r1 = Exn e ->
  outcome (run E c) = Exn e.
Proof.
  intros H1 Ht.
  run_cases E c; cbn [nth_error] in H1; inversion H1; subst; congruence.
Qed.

(** X11. What lines 24 to 29 raise on the response to call 1, in the
    order in which they look: the exception of [response.json()] when the
    body is not JSON; the KeyError of [uploadInitImage] when the body is a
    dict without it; under it, the KeyError of [fields], a TypeError when
    the fields are not a string, the decoding error when they do not
    decode; and only with usable fields the KeyError of [url], then of
    [id].  The run ends with that exception. *)
Theorem ticket_errors (E : env) (c : config) (r1 : response) :
  nth_error (calls (run E c)) 0 = Some (call1 c, Ok r1) ->
  (forall e, json r1 = Exn e -> outcome (run E c) = Exn e) /\
  (forall d,
     json r1 = Ok (VDict d) -> lookup "uploadInitImage" d = None ->
     outcome (run E c) = Exn (KeyError "uploadInitImage")) /\
  (forall d t,
     json r1 = Ok (VDict d) -> lookup "uploadInitImage" d = Some (VDict t) ->
     (lookup "fields" t = None -> outcome (run E c) = Exn (KeyError "fields")) /\
     (forall v, lookup "fields" t = Some v -> (forall s, v <> VStr s) ->
                outcome (run E c) = Exn TypeError) /\
     (forall s, lookup "fields" t = Some (VStr s) -> json_loads E s = None ->
                outcome (run E c) = Exn JSONDecodeError) /\
     (forall s x, lookup "fields" t = Some (VStr s) -> json_loads E s = Some x ->
        (lookup "url" t = None -> outcome (run E c) = Exn (KeyError "url")) /\
        (forall u, lookup "url" t = Some u -> lookup "id" t = None ->
                   outcome (run E c) = Exn (KeyError "id")))).
Proof.
  intros H1.
  assert (Hend : forall e, ticket E r1 = Exn e -> outcome (run E c) = Exn e)
    by (intros e; apply ticket_failure_ends_run; exact H1).
  unfold ticket, json_at, and_then in Hend.
  split; [|split].
  - intros e He. apply Hend. rewrite He. reflexivity.
  - intros d Hd Hu. apply Hend. rewrite Hd. cbn [getitem]. rewrite Hu. reflexivity.
  - intros d t Hd Hu.
    rewrite Hd in Hend. cbn [getitem] in Hend. rewrite Hu in Hend.
    cbn [getitem] in Hend.
    split; [|split; [|split]].
    + intros Hf. apply Hend. rewrite Hf. reflexivity.
    + intros v Hf Hv. apply Hend. rewrite Hf.
      destruct v; try reflexivity. exfalso. apply (Hv s). reflexivity.
    + intros s Hf Hs. apply Hend. rewrite Hf. cbn [loads]. rewrite Hs. reflexivity.
    + intros s x Hf Hs.
      rewrite Hf in Hend. cbn [loads] in Hend. rewrite Hs in Hend.
      split.
      * intros Hurl. apply Hend. rewrite Hurl. reflexivity.
      * intros u Hurl Hid. apply Hend. rewrite Hurl, Hid. reflexivity.
Qed.

Lemma ticket_errors_witness :
  outcome (run Mock.unauthorized leo_ex_3) = Exn (KeyError "uploadInitImage") /\
  outcome (run Mock.garbled leo_ex_3) = Exn JSONDecodeError.
Proof.
  split.
  - apply (proj1 (proj2 (ticket_errors Mock.unauthorized leo_ex_3 (Mock.refused 401)
                           eq_refl))
             [ ("error", VStr "refused") ]); reflexivity.
  - pose proof (proj2 (proj2 (ticket_errors Mock.garbled leo_ex_3 Mock.ticket_garbled
                                eq_refl))
                  [ ("uploadInitImage",
                     VDict [ ("id", VStr "abc123"); ("fields", VStr "key=1");
                             ("url", VStr Mock.bucket) ]) ]
                  [ ("id", VStr "abc123"); ("fields", VStr "key=1");
                    ("url", VStr Mock.bucket) ]
                  eq_refl eq_refl) as [_ [_ [Hdec _]]].
    apply (Hdec "key=1"); reflexivity.
Defined.

(** X12. The generation id is not checked either: once call 3 is answered
    with a body that has some value under [sdGenerationJob.generationId],
    whatever the status, the run sleeps and polls the URL made of that
    value as ["%s"] prints it; a null id polls [generations/None], an
    integer id its decimal digits. *)
Theorem poll_for_any_generation_id (E : env) (c : config)
    (q3 : request) (r3 : response) (generation_id : value) :
  nth_error (calls (run E c)) 2 = Some (q3, Ok r3) ->
  job r3 = Ok generation_id ->
  exists reply4,
    nth_error (events (run E c)) 7 = Some (Sleep 20) /\
    nth_error (calls (run E c)) 3 = Some (call4 E c generation_id, reply4) /\
    (generation_id = VNone ->
     url (call4 E c generation_id) = VStr (generations_url ++ "/None")) /\
    (forall n, generation_id = VInt n ->
     url (call4 E c generation_id) = VStr (generations_url ++ "/" ++ str_int n)).
Proof.
  intros H3 Hjob.
  run_cases E c; cbn [nth_error] in H3; try discriminate H3;
    inversion H3; subst; clear H3; try congruence;
    match goal with
    | Hj : job r3 = Ok ?g |- _ =>
        rewrite Hjob in Hj; inversion Hj; subst; clear Hj
    end;
    eexists; (split; [reflexivity|]); (split; [reflexivity|]);
    (split; [intros -> | intros n ->]); reflexivity.
Qed.

Lemma poll_for_any_generation_id_witness :
  exists reply4,
    nth_error (events (run without_id leo_ex_3)) 7 = Some (Sleep 20) /\
    nth_error (calls (run without_id leo_ex_3)) 3
      = Some (call4 without_id leo_ex_3 VNone, reply4) /\
    (VNone = VNone ->
     url (call4 without_id leo_ex_3 VNone) = VStr (generations_url ++ "/None")) /\
    (forall n, VNone = VInt n ->
     url (call4 without_id leo_ex_3 VNone) = VStr (generations_url ++ "/" ++ str_int n)).
Proof.
  apply (poll_for_any_generation_id without_id leo_ex_3
           (call3 leo_ex_3 (VStr "abc123")) null_job VNone).
  - reflexivity.
  - reflexivity.
Defined.
